(** * prefect.runtime.task_run: dynamic attributes of the current task run

    A shallow embedding of [src/prefect/runtime/task_run.py].  The module
    exposes five attributes ([id], [tags], [name], [parameters],
    [task_name]) through a module-level [__getattr__]; each attribute is
    computed by a zero-argument resolver that reads the ambient
    [TaskRunContext], and can be mocked through an environment variable
    [PREFECT__RUNTIME__TASK_RUN__<NAME>].

    Python strings are modelled as Rocq strings (byte strings, UTF-8 for
    text outside ASCII).  The attribute names of the module are ASCII, and
    [str.upper] is modelled on ASCII text: a property that ranges over
    arbitrary requested names assumes [isascii] of the name. *)

From Stdlib Require Import ZArith NArith String Ascii List.
From stdpp Require Import base option list strings gmap sorting.

Local Open Scope string_scope.
Local Open Scope list_scope.

(** ** Python values *)

#[local] Set Warnings "-register-all".

Section Values.
(** Python's [float] and [pendulum.DateTime] objects.  The module never
    looks inside them, it only tests [isinstance] on them. *)
Variables (PyFloat DateTime : Type).

Inductive value : Type :=
| VNone
| VBool (b : bool)
| VInt (n : Z)
| VFloat (x : PyFloat)
| VDateTime (t : DateTime)
| VStr (s : string)
| VList (l : list value)
| VDict (d : list (string * value)).

End Values.

(** Exceptions raised by the module.  [AttributeError m n] carries the
    message [f"{m} has no attribute {n!r}"]; [ValueError] is what [int],
    [float] and [pendulum.instance] raise on an argument they cannot
    convert. *)
Inductive exn : Type :=
| AttributeError (module_name name : string)
| ValueError.

(** The outcome of a call: a returned value or a raised exception. *)
Inductive result (A : Type) : Type :=
| Ok (a : A)
| Raise (e : exn).

Arguments VNone {PyFloat DateTime}.
Arguments VBool {PyFloat DateTime} b.
Arguments VInt {PyFloat DateTime} n.
Arguments VFloat {PyFloat DateTime} x.
Arguments VDateTime {PyFloat DateTime} t.
Arguments VStr {PyFloat DateTime} s.
Arguments VList {PyFloat DateTime} l.
Arguments VDict {PyFloat DateTime} d.
Arguments Ok {A} a.
Arguments Raise {A} e.

(** ** [str.upper] on ASCII text

    The letters [a]-[z] are mapped to [A]-[Z]; every other byte is kept.
    This is [str.upper] on ASCII strings, the ones [isascii] accepts; on
    other text Python also maps letters outside ASCII, so the properties
    that range over arbitrary names are stated for ASCII names. *)

(** [str.isascii]: every character is below 128. *)
Fixpoint isascii (s : string) : bool :=
  match s with
  | EmptyString => true
  | String c s' => (N_of_ascii c <? 128)%N && isascii s'
  end.

Definition upper_ascii (c : ascii) : ascii :=
  let n := N_of_ascii c in
  if ((97 <=? n) && (n <=? 122))%N then ascii_of_N (n - 32) else c.

Fixpoint upper (s : string) : string :=
  match s with
  | EmptyString => EmptyString
  | String c s' => String (upper_ascii c) (upper s')
  end.

(** ** [sorted] on a list of strings

    Python orders strings lexicographically by code point; its sort is
    stable, and on strings equal elements are indistinguishable. *)

Definition str_le (s1 s2 : string) : Prop := String.leb s1 s2 = true.

#[global] Instance str_le_dec : RelDecision str_le.
Proof. intros s1 s2. unfold str_le. apply _. Defined.

Definition sorted (l : list string) : list string := merge_sort str_le l.

(** ** [uuid.UUID] and its [str] *)

Module UUID.
(** A UUID is a 128-bit integer. *)
Record t : Type := { int : N }.

Definition hex_digit (n : N) : ascii :=
  match String.get (N.to_nat n) "0123456789abcdef" with
  | Some c => c
  | None => "0"%char
  end.

(** ['%0<width>x' % n] for [n < 16 ^ width]. *)
Fixpoint hex_fixed (width : nat) (n : N) : string :=
  match width with
  | O => ""
  | S w => hex_fixed w (n / 16) +:+ String (hex_digit (n mod 16)) ""
  end.

(** [UUID.__str__]: the 32 hexadecimal digits grouped 8-4-4-4-12. *)
Definition str (u : t) : string :=
  let hex := hex_fixed 32 (int u) in
  substring 0 8 hex +:+ "-" +:+ substring 8 4 hex +:+ "-" +:+
  substring 12 4 hex +:+ "-" +:+ substring 16 4 hex +:+ "-" +:+
  substring 20 12 hex.
End UUID.

(** ** The ambient task-run context

    Modelled from the spec: the classes of the task run and of the task
    definition are declared outside the module.  Only the attributes that
    the resolvers read are kept: the run's identifier, display name and
    tags, and the task definition's name. *)

Module TaskRun.
Record t : Type := { id : UUID.t; name : string; tags : list string }.
End TaskRun.

Module Task.
Record t : Type := { name : string }.
End Task.

(** ** The module [prefect.runtime.task_run] *)

Module task_run.
Section Runtime.
Context {PyFloat DateTime : Type}.
#[local] Abbreviation value := (value PyFloat DateTime).

(** Python's [datetime.datetime], as returned by [dateparser.parse]. *)
Context {datetime : Type}.

(** The collaborators of the coercion layer: [int(s)] and [float(s)]
    ([None] when they raise [ValueError]), [dateparser.parse(s)] (which
    returns Python's [None] on text it cannot read) and
    [pendulum.instance(dt)] on a [datetime]. *)
Variable int : string -> option Z.
Variable float : string -> option PyFloat.
Variable dateparser_parse : string -> option datetime.
Variable pendulum_instance : datetime -> DateTime.

(** Modelled from the spec: the declaration of [prefect.context.TaskRunContext]
    is not part of the module.  Its fields are the ones the resolvers
    read ([task_run.id], [task_run.tags], [task_run.name], [task.name],
    [parameters]), typed as the resolvers' return annotations and the
    data model have them: an identifier, a collection of string tags, a
    display name, a mapping of call parameters and the task
    definition's name. *)
Record TaskRunContext : Type := {
  task_run : TaskRun.t;
  task : Task.t;
  parameters : list (string * value)
}.

(** The state of the process a call runs in: the context that
    [TaskRunContext.get()] returns ([None] outside of a task run) and
    [os.environ]. *)
Record Process : Type := {
  TaskRunContext_get : option TaskRunContext;
  os_environ : gmap string string
}.

(** *** The resolvers *)

Definition get_id (p : Process) : value :=
  match TaskRunContext_get p with
  | Some task_run_ctx => VStr (UUID.str (TaskRun.id (task_run task_run_ctx)))
  | None => VNone
  end.

Definition get_tags (p : Process) : value :=
  match TaskRunContext_get p with
  | None => VList []
  | Some task_run_ctx => VList (VStr <$> TaskRun.tags (task_run task_run_ctx))
  end.

Definition get_name (p : Process) : value :=
  match TaskRunContext_get p with
  | None => VNone
  | Some task_run_ctx => VStr (TaskRun.name (task_run task_run_ctx))
  end.

Definition get_task_name (p : Process) : value :=
  match TaskRunContext_get p with
  | None => VNone
  | Some task_run_ctx => VStr (Task.name (task task_run_ctx))
  end.

Definition get_parameters (p : Process) : value :=
  match TaskRunContext_get p with
  | Some task_run_ctx => VDict (parameters task_run_ctx)
  | None => VDict []
  end.

Definition FIELDS : gmap string (Process -> value) :=
  list_to_map [
    ("id", get_id);
    ("tags", get_tags);
    ("name", get_name);
    ("parameters", get_parameters);
    ("task_name", get_task_name)
  ].

Definition __all__ : list string :=
  ["id"; "tags"; "name"; "parameters"; "task_name"].

Definition __name__ : string := "prefect.runtime.task_run".

(** *** [isinstance] tests; [bool] is a subclass of [int] *)

Definition isinstance_bool (v : value) : bool :=
  match v with VBool _ => true | _ => false end.
Definition isinstance_int (v : value) : bool :=
  match v with VBool _ | VInt _ => true | _ => false end.
Definition isinstance_float (v : value) : bool :=
  match v with VFloat _ => true | _ => false end.
Definition isinstance_DateTime (v : value) : bool :=
  match v with VDateTime _ => true | _ => false end.

(** The values that are [None], a [str], a [list] or a [dict]. *)
Definition is_plain (v : value) : bool :=
  match v with
  | VNone | VStr _ | VList _ | VDict _ => true
  | VBool _ | VInt _ | VFloat _ | VDateTime _ => false
  end.

(** [bool(s)] on a string: true exactly when it is not empty. *)
Definition bool_of_str (s : string) : bool :=
  match s with EmptyString => false | String _ _ => true end.

Definition env_key (name : string) : string :=
  "PREFECT__RUNTIME__TASK_RUN__" +:+ upper name.

(** *** [__getattr__], over any registry

    [getattr_in fields] is the body of [__getattr__] with the registry
    it consults made explicit; the module's accessor is
    [getattr_in FIELDS]. *)

Definition getattr_in (fields : gmap string (Process -> value))
    (name : string) (p : Process) : result value :=
  let func := fields !! name in
  let env_key := env_key name in
  match func with
  | Some func =>
      let real_value := func p in
      match os_environ p !! env_key with
      | Some mocked_value =>
          if isinstance_bool real_value then
            Ok (VBool (bool_of_str mocked_value))
          else if isinstance_int real_value then
            match int mocked_value with
            | Some n => Ok (VInt n)
            | None => Raise ValueError
            end
          else if isinstance_float real_value then
            match float mocked_value with
            | Some x => Ok (VFloat x)
            | None => Raise ValueError
            end
          else if isinstance_DateTime real_value then
            match dateparser_parse mocked_value with
            | Some dt => Ok (VDateTime (pendulum_instance dt))
            | None => Raise ValueError
            end
          else
            Ok (VStr mocked_value)
      | None => Ok real_value
      end
  | None =>
      match os_environ p !! env_key with
      | Some mocked_value => Ok (VStr mocked_value)
      | None => Raise (AttributeError __name__ name)
      end
  end.

Definition __getattr__ (name : string) (p : Process) : result value :=
  getattr_in FIELDS name p.

Definition __dir__ (p : Process) : list string := sorted __all__.

End Runtime.
End task_run.

Import task_run.

(** ** Sample collaborators and processes

    Stand-ins for the collaborators and a few concrete processes, used to
    run the accessor on explicit inputs. *)

Module Sample.
Definition digit_of (c : ascii) : option Z :=
  let n := N_of_ascii c in
  if ((48 <=? n) && (n <=? 57))%N then Some (Z.of_N (n - 48)) else None.

Fixpoint digits (acc : Z) (s : string) : option Z :=
  match s with
  | EmptyString => Some acc
  | String c s' =>
      match digit_of c with
      | Some d => digits (10 * acc + d) s'
      | None => None
      end
  end.

(** [int] on plain decimal literals with an optional minus sign. *)
Definition int (s : string) : option Z :=
  match s with
  | EmptyString => None
  | String "-" EmptyString => None
  | String "-" s' => Z.opp <$> digits 0 s'
  | _ => digits 0 s
  end.

(** No float or date text is needed by the examples. *)
Definition float (s : string) : option unit := None.
Definition dateparser_parse (s : string) : option unit := None.
Definition pendulum_instance (dt : unit) : unit := dt.

Definition getattr_in := getattr_in int float dateparser_parse pendulum_instance.
Definition __getattr__ := __getattr__ int float dateparser_parse pendulum_instance.

Definition ctx : @TaskRunContext unit unit := {|
  task_run := {|
    TaskRun.id := {| UUID.int := 0x12345678123456781234567812345678 |};
    TaskRun.name := "my_task-0";
    TaskRun.tags := ["a"; "b"]
  |};
  task := {| Task.name := "my_task" |};
  parameters := [("x", VInt 1); ("y", VStr "two")]
|}.

(** Outside of any task run, nothing mocked. *)
Definition outside : @Process unit unit :=
  {| TaskRunContext_get := None; os_environ := ∅ |}.

(** Inside a task run, nothing mocked. *)
Definition inside : @Process unit unit :=
  {| TaskRunContext_get := Some ctx; os_environ := ∅ |}.

(** Inside a task run, with [os.environ] set to [env]. *)
Definition inside_with (env : gmap string string) : @Process unit unit :=
  {| TaskRunContext_get := Some ctx; os_environ := env |}.

(** Outside of any task run, with [os.environ] set to [env]. *)
Definition outside_with (env : gmap string string) : @Process unit unit :=
  {| TaskRunContext_get := None; os_environ := env |}.

(** Mocked attributes: one outside the registry, one whose real value is a
    dict, one of a registry with a [bool] attribute. *)
Definition mocked_unknown : @Process unit unit :=
  outside_with {[ "PREFECT__RUNTIME__TASK_RUN__NOT_A_REAL_ATTR" := "x" ]}.

Definition mocked_parameters : @Process unit unit :=
  inside_with {[ "PREFECT__RUNTIME__TASK_RUN__PARAMETERS" := "42" ]}.

Definition mocked_flag : @Process unit unit :=
  outside_with {[ "PREFECT__RUNTIME__TASK_RUN__FLAG" := "false" ]}.

Definition get_flag (p : @Process unit unit) : value unit unit := VBool true.

(** A registry with attributes of every coercible type, to exercise the
    casting branches of the accessor. *)
Definition typed_fields : gmap string (@Process unit unit -> value unit unit) :=
  list_to_map [
    ("flag", get_flag);
    ("retries", fun _ => VInt 3);
    ("ratio", fun _ => VFloat tt);
    ("started", fun _ => VDateTime tt);
    ("labels", fun _ => VList [VStr "a"])
  ].
End Sample.

(** ** Properties of the accessor *)

Section Properties.
Context {PyFloat DateTime datetime : Type}.
Variable int : string -> option Z.
Variable float : string -> option PyFloat.
Variable dateparser_parse : string -> option datetime.
Variable pendulum_instance : datetime -> DateTime.

#[local] Abbreviation value := (value PyFloat DateTime).
#[local] Abbreviation Process := (@Process PyFloat DateTime).
#[local] Abbreviation getattr_in :=
  (getattr_in int float dateparser_parse pendulum_instance).
#[local] Abbreviation __getattr__ :=
  (__getattr__ int float dateparser_parse pendulum_instance).

(** *** The two failure conditions, in the words of the module's contract

    An attribute is unknown when its name is not registered and no
    environment variable mocks it; a mocked value is unparsable when the
    text of the environment variable cannot be parsed into the numeric or
    date type of the real value. *)

Definition unknown_attribute (fields : gmap string (Process -> value))
    (name : string) (p : Process) : Prop :=
  fields !! name = None /\ os_environ p !! env_key name = None.

Definition unparsable_override (fields : gmap string (Process -> value))
    (name : string) (p : Process) : Prop :=
  exists func mocked_value,
    fields !! name = Some func /\
    os_environ p !! env_key name = Some mocked_value /\
    match func p with
    | VInt _ => int mocked_value = None
    | VFloat _ => float mocked_value = None
    | VDateTime _ => dateparser_parse mocked_value = None
    | VNone | VBool _ | VStr _ | VList _ | VDict _ => False
    end.

(** *** Vocabulary for further properties *)

(** [type(v)], for the classes the accessor tells apart. *)
Inductive pytype : Type :=
| NoneType | bool_type | int_type | float_type | DateTime_type
| str_type | list_type | dict_type.

Definition type_of (v : value) : pytype :=
  match v with
  | VNone => NoneType
  | VBool _ => bool_type
  | VInt _ => int_type
  | VFloat _ => float_type
  | VDateTime _ => DateTime_type
  | VStr _ => str_type
  | VList _ => list_type
  | VDict _ => dict_type
  end.

(** The empty values of the resolvers: [None], the empty list and the
    empty dict. *)
Definition is_empty_value (v : value) : bool :=
  match v with
  | VNone | VList [] | VDict [] => true
  | _ => false
  end.

(** The process after [os.environ[key] = text]. *)
Definition setenv (key text : string) (p : Process) : Process :=
  {| TaskRunContext_get := TaskRunContext_get p;
     os_environ := <[key := text]> (os_environ p) |}.

(** *** The registry *)

Lemma FIELDS_lookup_Some (name : string) (func : Process -> value) :
  FIELDS !! name = Some func <->
  (name = "id" /\ func = get_id) \/
  (name = "tags" /\ func = get_tags) \/
  (name = "name" /\ func = get_name) \/
  (name = "parameters" /\ func = get_parameters) \/
  (name = "task_name" /\ func = get_task_name).
Proof.
  unfold FIELDS; simpl.
  rewrite !lookup_insert_Some, lookup_empty.
  split.
  - intros H. repeat destruct H as [[<- <-] | [_ H]]; auto 10. discriminate.
  - intros H. repeat destruct H as [[-> ->] | H].
    5: destruct H as [-> ->].
    all: repeat (first [ left; split; [reflexivity | reflexivity]
                       | right; split; [discriminate |] ]).
Qed.

Lemma FIELDS_registered (name : string) :
  is_Some (FIELDS (PyFloat := PyFloat) (DateTime := DateTime) !! name) <->
  name ∈ ["id"; "tags"; "name"; "parameters"; "task_name"].
Proof.
  rewrite !elem_of_cons, elem_of_nil. split.
  - intros [func H]. apply FIELDS_lookup_Some in H.
    destruct H as [[-> _] | [[-> _] | [[-> _] | [[-> _] | [-> _]]]]]; auto 10.
  - intros H. destruct H as [-> | [-> | [-> | [-> | [-> | []]]]]];
      eexists; apply FIELDS_lookup_Some; auto 10.
Qed.

(** *** The three ways out of the accessor *)

Lemma getattr_in_real fields name func (p : Process) :
  fields !! name = Some func ->
  os_environ p !! env_key name = None ->
  getattr_in fields name p = Ok (func p).
Proof. intros Hf He. unfold task_run.getattr_in. by rewrite Hf, He. Qed.

Lemma getattr_in_mocked_str fields name func (p : Process) mocked_value :
  fields !! name = Some func ->
  os_environ p !! env_key name = Some mocked_value ->
  isinstance_int (func p) = false ->
  isinstance_float (func p) = false ->
  isinstance_DateTime (func p) = false ->
  getattr_in fields name p = Ok (VStr mocked_value).
Proof.
  intros Hf He Hi Hfl Hd. unfold task_run.getattr_in. rewrite Hf, He.
  destruct (func p); simpl in *; congruence.
Qed.

Lemma getattr_in_unregistered fields name (p : Process) :
  fields !! name = None ->
  getattr_in fields name p =
    match os_environ p !! env_key name with
    | Some mocked_value => Ok (VStr mocked_value)
    | None => Raise (AttributeError __name__ name)
    end.
Proof. intros Hf. unfold task_run.getattr_in. by rewrite Hf. Qed.

(** Unfold the accessor at a registered name with nothing mocked. *)
Ltac resolve_real Henv :=
  unfold task_run.__getattr__;
  erewrite getattr_in_real;
    [ | apply FIELDS_lookup_Some; eauto 10 | exact Henv ].

(** *** Resolution outside of a task run *)

(** C1: for every registered attribute name other than [id], the
    accessor, called with no task-run context active and no environment
    variable set for the name, returns the neutral default: the empty
    list for [tags], the empty dict for [parameters], and [None] for
    [name] and [task_name]. *)
Theorem neutral_default_without_context (name : string) (p : Process) :
  is_Some (FIELDS (PyFloat := PyFloat) (DateTime := DateTime) !! name) ->
  name <> "id" ->
  TaskRunContext_get p = None ->
  os_environ p !! env_key name = None ->
  __getattr__ name p =
    Ok (if String.eqb name "tags" then VList []
        else if String.eqb name "parameters" then VDict []
        else VNone).
Proof.
  intros [func Hname] Hid Hctx Henv.
  apply FIELDS_lookup_Some in Hname.
  destruct Hname as [[-> ->] | [[-> ->] | [[-> ->] | [[-> ->] | [-> ->]]]]];
    [ congruence | .. ];
    resolve_real Henv; simpl;
    unfold get_tags, get_name, get_parameters, get_task_name;
    rewrite Hctx; reflexivity.
Qed.

(** C7: with no task-run context active and no environment variable set
    for [id], the [id] resolver falls off its single guarded branch and
    the accessor returns [None]. *)
Theorem id_without_context (p : Process) :
  TaskRunContext_get p = None ->
  os_environ p !! env_key "id" = None ->
  get_id p = VNone /\ __getattr__ "id" p = Ok VNone.
Proof.
  intros Hctx Henv.
  assert (Hid : get_id p = VNone) by (unfold get_id; by rewrite Hctx).
  split; [ exact Hid | ].
  resolve_real Henv. by rewrite Hid.
Qed.

(** *** Resolution inside a task run *)

(** C2: for every registered attribute name, the accessor, called with a
    task-run context active and no environment variable set for the
    name, returns what the context holds: the task run's id through
    [str] for [id], and the context's own field for the other four. *)
Theorem context_value_unmodified
    (name : string) (p : Process) (task_run_ctx : TaskRunContext) :
  is_Some (FIELDS (PyFloat := PyFloat) (DateTime := DateTime) !! name) ->
  TaskRunContext_get p = Some task_run_ctx ->
  os_environ p !! env_key name = None ->
  __getattr__ name p =
    Ok (if String.eqb name "id" then
          VStr (UUID.str (TaskRun.id (task_run task_run_ctx)))
        else if String.eqb name "tags" then
          VList (VStr <$> TaskRun.tags (task_run task_run_ctx))
        else if String.eqb name "name" then
          VStr (TaskRun.name (task_run task_run_ctx))
        else if String.eqb name "task_name" then
          VStr (Task.name (task task_run_ctx))
        else
          VDict (parameters task_run_ctx)).
Proof.
  intros [func Hname] Hctx Henv.
  apply FIELDS_lookup_Some in Hname.
  destruct Hname as [[-> ->] | [[-> ->] | [[-> ->] | [[-> ->] | [-> ->]]]]];
    resolve_real Henv; simpl;
    unfold get_id, get_tags, get_name, get_parameters, get_task_name;
    rewrite Hctx; reflexivity.
Qed.

(** *** Names outside the registry *)

(** C4: an ASCII name that is not a key of the registry and has no
    environment variable set makes the accessor raise [AttributeError],
    whose message names the module and the requested name. *)
Theorem unknown_attribute_raises (name : string) (p : Process) :
  isascii name = true ->
  FIELDS (PyFloat := PyFloat) (DateTime := DateTime) !! name = None ->
  os_environ p !! env_key name = None ->
  __getattr__ name p = Raise (AttributeError "prefect.runtime.task_run" name).
Proof.
  intros _ Hname Henv. unfold task_run.__getattr__.
  rewrite getattr_in_unregistered by exact Hname. by rewrite Henv.
Qed.

(** C5: an ASCII name that is not a key of the registry but has an
    environment variable set resolves to the variable's text, as a
    string. *)
Theorem unknown_attribute_mocked
    (name : string) (p : Process) (mocked_value : string) :
  isascii name = true ->
  FIELDS (PyFloat := PyFloat) (DateTime := DateTime) !! name = None ->
  os_environ p !! env_key name = Some mocked_value ->
  __getattr__ name p = Ok (VStr mocked_value).
Proof.
  intros _ Hname Henv. unfold task_run.__getattr__.
  rewrite getattr_in_unregistered by exact Hname. by rewrite Henv.
Qed.

(** *** Mocked attributes *)

(** C3: whatever the registry, when the resolver of a registered name
    produces a list or a dict and an environment variable is set for the
    name, the accessor returns the variable's text as a string, without
    rebuilding a list or a dict from it. *)
Theorem compound_override_is_raw
    (fields : gmap string (Process -> value)) (name : string)
    (func : Process -> value) (p : Process) (mocked_value : string) :
  fields !! name = Some func ->
  (exists l, func p = VList l) \/ (exists d, func p = VDict d) ->
  os_environ p !! env_key name = Some mocked_value ->
  getattr_in fields name p = Ok (VStr mocked_value).
Proof.
  intros Hname Hreal Henv.
  apply getattr_in_mocked_str with (func := func); try assumption;
    destruct Hreal as [[l ->] | [d ->]]; reflexivity.
Qed.

(** C8: whatever the registry, when the resolver of a registered name
    produces a [bool] and an environment variable is set for the name, the
    accessor returns [False] for the empty text and [True] for any other
    text. *)
Theorem bool_override_is_truthiness
    (fields : gmap string (Process -> value)) (name : string)
    (func : Process -> value) (p : Process) (b : bool) (mocked_value : string) :
  fields !! name = Some func ->
  func p = VBool b ->
  os_environ p !! env_key name = Some mocked_value ->
  getattr_in fields name p =
    Ok (VBool (if String.eqb mocked_value "" then false else true)).
Proof.
  intros Hname Hreal Henv. unfold task_run.getattr_in.
  rewrite Hname, Henv, Hreal. simpl.
  by destruct mocked_value.
Qed.

(** *** What the resolvers of the module produce *)

Lemma FIELDS_plain (name : string) (func : Process -> value) (p : Process) :
  FIELDS !! name = Some func -> is_plain (func p) = true.
Proof.
  intros Hname. apply FIELDS_lookup_Some in Hname.
  destruct Hname as [[-> ->] | [[-> ->] | [[-> ->] | [[-> ->] | [-> ->]]]]];
    unfold get_id, get_tags, get_name, get_parameters, get_task_name;
    by destruct (TaskRunContext_get p).
Qed.

Lemma is_plain_isinstance (v : value) :
  is_plain v = true ->
  isinstance_bool v = false /\ isinstance_int v = false /\
  isinstance_float v = false /\ isinstance_DateTime v = false.
Proof. by destruct v. Qed.

Lemma getattr_registered_mocked (name : string) (p : Process) (mocked_value : string) :
  is_Some (FIELDS (PyFloat := PyFloat) (DateTime := DateTime) !! name) ->
  os_environ p !! env_key name = Some mocked_value ->
  __getattr__ name p = Ok (VStr mocked_value).
Proof.
  intros [func Hname] Henv.
  destruct (is_plain_isinstance (func p) (FIELDS_plain _ _ p Hname))
    as (_ & Hint & Hfloat & Hdate).
  by apply getattr_in_mocked_str with (func := func).
Qed.

Lemma getattr_registered_returns (name : string) (p : Process) :
  is_Some (FIELDS (PyFloat := PyFloat) (DateTime := DateTime) !! name) ->
  exists v, __getattr__ name p = Ok v.
Proof.
  intros Hname.
  destruct (os_environ p !! env_key name) as [mocked_value|] eqn:Henv.
  - exists (VStr mocked_value). by apply getattr_registered_mocked.
  - destruct Hname as [func Hname]. exists (func p).
    by apply getattr_in_real.
Qed.

(** C10: for every registered name and every process, the resolver
    produces [None], a string, a list or a dict, so none of the four
    [isinstance] tests of the casting chain succeeds; a mocked registered
    attribute is therefore always the environment variable's text, and the
    accessor never raises [ValueError]. *)
Theorem casting_branches_unreachable :
  (forall (name : string) (func : Process -> value) (p : Process),
     FIELDS !! name = Some func ->
     is_plain (func p) = true /\
     isinstance_bool (func p) = false /\
     isinstance_int (func p) = false /\
     isinstance_float (func p) = false /\
     isinstance_DateTime (func p) = false /\
     forall mocked_value,
       os_environ p !! env_key name = Some mocked_value ->
       __getattr__ name p = Ok (VStr mocked_value)) /\
  (forall (name : string) (p : Process), __getattr__ name p <> Raise ValueError).
Proof.
  split.
  - intros name func p Hname.
    pose proof (FIELDS_plain _ _ p Hname) as Hplain.
    destruct (is_plain_isinstance _ Hplain) as (Hb & Hi & Hf & Hd).
    repeat (split; [assumption |]).
    intros mocked_value Henv. by apply getattr_registered_mocked.
  - intros name p.
    destruct (FIELDS (PyFloat := PyFloat) (DateTime := DateTime) !! name)
      as [func|] eqn:Hname.
    + destruct (getattr_registered_returns name p) as [v ->]; [by eexists | done].
    + unfold task_run.__getattr__.
      rewrite getattr_in_unregistered by exact Hname.
      by destruct (os_environ p !! env_key name).
Qed.

(** *** Failures *)

Lemma getattr_in_raises
    (fields : gmap string (Process -> value)) (name : string) (p : Process)
    (e : exn) :
  getattr_in fields name p = Raise e <->
  (unknown_attribute fields name p /\ e = AttributeError __name__ name) \/
  (unparsable_override fields name p /\ e = ValueError).
Proof.
  unfold task_run.getattr_in, unknown_attribute, unparsable_override.
  destruct (fields !! name) as [func|] eqn:Hname;
    destruct (os_environ p !! env_key name) as [mocked_value|] eqn:Henv.
  - split.
    + intros Hraise. right.
      destruct (func p) eqn:Hreal; simpl in Hraise; try discriminate.
      * destruct (int mocked_value) eqn:Hint; inversion Hraise; subst.
        split; [| reflexivity]. exists func, mocked_value. by rewrite Hreal.
      * destruct (float mocked_value) eqn:Hfloat; inversion Hraise; subst.
        split; [| reflexivity]. exists func, mocked_value. by rewrite Hreal.
      * destruct (dateparser_parse mocked_value) eqn:Hdate; inversion Hraise; subst.
        split; [| reflexivity]. exists func, mocked_value. by rewrite Hreal.
    + intros [[[? _] _] | [(func' & mocked' & Hf & Hm & Hbad) ->]]; [discriminate |].
      inversion Hf; inversion Hm; subst func' mocked'.
      destruct (func p); simpl; try contradiction; by rewrite Hbad.
  - split; [discriminate |].
    intros [[[? _] _] | [(func' & mocked' & _ & Hm & _) _]]; discriminate.
  - split; [discriminate |].
    intros [[[_ ?] _] | [(func' & mocked' & Hf & _) _]]; discriminate.
  - split.
    + intros Hraise. inversion Hraise. by left.
    + intros [[_ ->] | [(func' & mocked' & Hf & _) _]]; [reflexivity | discriminate].
Qed.

(** C6: on an ASCII name the accessor raises in exactly two situations:
    [AttributeError] when the name is not registered and no environment
    variable is set for it, and [ValueError] when the text of the
    environment variable cannot be parsed into the numeric or date type of
    the real value.  With the registry of the module only the first
    situation arises, whatever the task-run context; in particular every
    registered name resolves to a value when no context is active. *)
Theorem failure_conditions :
  (forall (fields : gmap string (Process -> value)) (name : string)
          (p : Process) (e : exn),
     isascii name = true ->
     (getattr_in fields name p = Raise e <->
      (unknown_attribute fields name p /\ e = AttributeError __name__ name) \/
      (unparsable_override fields name p /\ e = ValueError))) /\
  (forall (name : string) (p : Process) (e : exn),
     isascii name = true ->
     (__getattr__ name p = Raise e <->
      unknown_attribute FIELDS name p /\ e = AttributeError __name__ name)) /\
  (forall (name : string) (p : Process),
     is_Some (FIELDS (PyFloat := PyFloat) (DateTime := DateTime) !! name) ->
     TaskRunContext_get p = None ->
     exists v, __getattr__ name p = Ok v).
Proof.
  split; [intros fields name p e _; apply getattr_in_raises |]. split.
  - intros name p e _. unfold task_run.__getattr__. rewrite getattr_in_raises.
    split; [| by left].
    intros [H | [(func & mocked_value & Hname & Henv & Hbad) _]]; [exact H |].
    pose proof (FIELDS_plain _ _ p Hname) as Hplain.
    by destruct (func p).
  - intros name p Hname _. by apply getattr_registered_returns.
Qed.

(** *** Listing the names *)

(** C9: in every process, whatever its task-run context and environment,
    [__dir__] returns the same list: the keys of the registry, [id],
    [name], [parameters], [tags], [task_name], in lexicographic order. *)
Theorem dir_is_sorted_registry (p : Process) :
  __dir__ p = ["id"; "name"; "parameters"; "tags"; "task_name"] /\
  StronglySorted str_le (__dir__ p) /\
  NoDup (__dir__ p) /\
  (forall name : string,
     name ∈ __dir__ p <->
     is_Some (FIELDS (PyFloat := PyFloat) (DateTime := DateTime) !! name)).
Proof.
  assert (Hdir : __dir__ p = ["id"; "name"; "parameters"; "tags"; "task_name"])
    by (vm_compute; reflexivity).
  rewrite Hdir. split; [reflexivity |]. split; [| split].
  - repeat constructor.
  - repeat (apply NoDup_cons_2;
              [rewrite ?elem_of_cons, elem_of_nil; intros H;
               repeat destruct H as [H | H]; discriminate || contradiction |]).
    apply NoDup_nil_2.
  - intros name. rewrite FIELDS_registered, !elem_of_cons, !elem_of_nil.
    clear - name. tauto.
Qed.

(** *** The environment key *)

Lemma env_key_eq (name name' : string) :
  env_key name = env_key name' <-> upper name = upper name'.
Proof.
  unfold env_key. split.
  - simpl. intros H. by inversion H.
  - by intros ->.
Qed.

Lemma env_key_registered_ne (name other : string) :
  is_Some (FIELDS (PyFloat := PyFloat) (DateTime := DateTime) !! name) ->
  is_Some (FIELDS (PyFloat := PyFloat) (DateTime := DateTime) !! other) ->
  name <> other ->
  env_key other <> env_key name.
Proof.
  rewrite !FIELDS_registered, !elem_of_cons, !elem_of_nil.
  intros Hname Hother Hne Hkey. apply env_key_eq in Hkey.
  destruct Hname as [-> | [-> | [-> | [-> | [-> | []]]]]];
    destruct Hother as [-> | [-> | [-> | [-> | [-> | []]]]]];
    first [ by apply Hne | discriminate Hkey ].
Qed.

(** *** The accessor of the module in one equation *)

Lemma getattr_override_first (name : string) (p : Process) :
  __getattr__ name p =
    match os_environ p !! env_key name with
    | Some mocked_value => Ok (VStr mocked_value)
    | None =>
        match FIELDS !! name with
        | Some func => Ok (func p)
        | None => Raise (AttributeError __name__ name)
        end
    end.
Proof.
  destruct (os_environ p !! env_key name) as [mocked_value|] eqn:Henv;
    destruct (FIELDS (PyFloat := PyFloat) (DateTime := DateTime) !! name)
      as [func|] eqn:Hname.
  - apply getattr_registered_mocked; [by eexists | exact Henv].
  - unfold task_run.__getattr__.
    rewrite getattr_in_unregistered by exact Hname. by rewrite Henv.
  - by apply getattr_in_real.
  - unfold task_run.__getattr__.
    rewrite getattr_in_unregistered by exact Hname. by rewrite Henv.
Qed.

Lemma resolver_reads_context
    (name : string) (func : Process -> value) (p p' : Process) :
  FIELDS !! name = Some func ->
  TaskRunContext_get p = TaskRunContext_get p' ->
  func p = func p'.
Proof.
  intros Hname Hctx. apply FIELDS_lookup_Some in Hname.
  destruct Hname as [[-> ->] | [[-> ->] | [[-> ->] | [[-> ->] | [-> ->]]]]];
    unfold get_id, get_tags, get_name, get_parameters, get_task_name;
    by rewrite Hctx.
Qed.

Lemma getattr_frame (name : string) (p p' : Process) :
  TaskRunContext_get p = TaskRunContext_get p' ->
  os_environ p !! env_key name = os_environ p' !! env_key name ->
  __getattr__ name p = __getattr__ name p'.
Proof.
  intros Hctx Henv. rewrite !getattr_override_first, <- Henv.
  destruct (os_environ p !! env_key name); [reflexivity |].
  destruct (FIELDS (PyFloat := PyFloat) (DateTime := DateTime) !! name)
    as [func|] eqn:Hname; [| reflexivity].
  by rewrite (resolver_reads_context name func p p' Hname Hctx).
Qed.

Lemma dir_elem_of (name : string) (p : Process) :
  name ∈ __dir__ p <->
  is_Some (FIELDS (PyFloat := PyFloat) (DateTime := DateTime) !! name).
Proof.
  assert (Hdir : __dir__ p = ["id"; "name"; "parameters"; "tags"; "task_name"])
    by (vm_compute; reflexivity).
  rewrite Hdir, FIELDS_registered, !elem_of_cons, !elem_of_nil.
  clear - name. tauto.
Qed.

(** X1: for the module's registry and an ASCII name, an environment
    variable always wins and is always returned as raw text; without one,
    a registered name gives its resolver's value and any other name raises
    [AttributeError]. *)
Theorem override_first (name : string) (p : Process) :
  isascii name = true ->
  __getattr__ name p =
    match os_environ p !! env_key name with
    | Some mocked_value => Ok (VStr mocked_value)
    | None =>
        match FIELDS !! name with
        | Some func => Ok (func p)
        | None => Raise (AttributeError __name__ name)
        end
    end.
Proof. intros _. exact (getattr_override_first name p). Qed.

(** X2: the environment key only depends on the upper-cased name, so a
    variable set for one ASCII name is returned, as raw text, under every
    ASCII spelling of the name that differs in letter case only. *)
Theorem mock_reaches_every_capitalisation
    (name name' : string) (p : Process) (mocked_value : string) :
  isascii name = true ->
  isascii name' = true ->
  upper name' = upper name ->
  os_environ p !! env_key name = Some mocked_value ->
  __getattr__ name' p = Ok (VStr mocked_value).
Proof.
  intros _ _ Hcase Henv. apply env_key_eq in Hcase.
  rewrite getattr_override_first. by rewrite Hcase, Henv.
Qed.

(** X3: for an ASCII name the accessor reads the task-run context and the
    one environment variable of the name, nothing else: two processes that
    agree on both give the same outcome. *)
Theorem reads_context_and_own_variable (name : string) (p p' : Process) :
  isascii name = true ->
  TaskRunContext_get p = TaskRunContext_get p' ->
  os_environ p !! env_key name = os_environ p' !! env_key name ->
  __getattr__ name p = __getattr__ name p'.
Proof. intros _. exact (getattr_frame name p p'). Qed.

(** X4: mocking one registered attribute leaves every other registered
    attribute as it was: their environment variables are distinct. *)
Theorem mock_isolation
    (name other : string) (p : Process) (mocked_value : string) :
  is_Some (FIELDS (PyFloat := PyFloat) (DateTime := DateTime) !! name) ->
  is_Some (FIELDS (PyFloat := PyFloat) (DateTime := DateTime) !! other) ->
  name <> other ->
  __getattr__ name (setenv (env_key other) mocked_value p) = __getattr__ name p.
Proof.
  intros Hname Hother Hne. apply getattr_frame; [reflexivity |].
  unfold setenv; simpl. apply lookup_insert_ne.
  by apply env_key_registered_ne.
Qed.

(** X5: every name that [__dir__] lists can be read: the accessor returns
    a value for it in every process, mocked or not, inside a task run or
    outside. *)
Theorem listed_names_resolve (name : string) (p : Process) :
  name ∈ __dir__ p ->
  exists v, __getattr__ name p = Ok v.
Proof.
  intros Hdir. apply dir_elem_of in Hdir.
  by apply getattr_registered_returns.
Qed.

(** X6: for an ASCII name with no environment variable set, being listed
    by [__dir__] and being readable are the same thing. *)
Theorem unmocked_readable_iff_listed (name : string) (p : Process) :
  isascii name = true ->
  os_environ p !! env_key name = None ->
  (name ∈ __dir__ p <-> exists v, __getattr__ name p = Ok v).
Proof.
  intros _ Henv. rewrite dir_elem_of. split.
  - by apply getattr_registered_returns.
  - intros [v Hv]. rewrite getattr_override_first, Henv in Hv.
    destruct (FIELDS (PyFloat := PyFloat) (DateTime := DateTime) !! name);
      [by eexists | discriminate].
Qed.

(** X7: whatever the registry, a mocked value that the accessor returns
    has the type of the real value when that is a [bool], an [int], a
    [float], a [DateTime] or a [str]; when the real value is [None], a
    list or a dict, it is a [str]. *)
Theorem cast_follows_real_type
    (fields : gmap string (Process -> value)) (name : string)
    (func : Process -> value) (p : Process) (mocked_value : string) (v : value) :
  fields !! name = Some func ->
  os_environ p !! env_key name = Some mocked_value ->
  getattr_in fields name p = Ok v ->
  type_of v =
    match type_of (func p) with
    | NoneType | list_type | dict_type => str_type
    | t => t
    end.
Proof.
  intros Hname Henv. unfold task_run.getattr_in. rewrite Hname, Henv.
  destruct (func p); simpl;
    repeat match goal with
           | |- context [match ?o with Some _ => _ | None => _ end] => destruct o
           end;
    intros Hv; inversion Hv; reflexivity.
Qed.

(** X8: outside of a task run, every registered attribute that is not
    mocked reads as an empty value: [None], the empty list or the empty
    dict. *)
Theorem empty_values_without_context (name : string) (p : Process) :
  is_Some (FIELDS (PyFloat := PyFloat) (DateTime := DateTime) !! name) ->
  TaskRunContext_get p = None ->
  os_environ p !! env_key name = None ->
  exists v, __getattr__ name p = Ok v /\ is_empty_value v = true.
Proof.
  intros [func Hname] Hctx Henv. exists (func p). split.
  - by apply getattr_in_real.
  - apply FIELDS_lookup_Some in Hname.
    destruct Hname as [[-> ->] | [[-> ->] | [[-> ->] | [[-> ->] | [-> ->]]]]];
      unfold get_id, get_tags, get_name, get_parameters, get_task_name;
      by rewrite Hctx.
Qed.

End Properties.

(** ** The accessor on explicit processes *)

Example getattr_id_inside :
  Sample.__getattr__ "id" Sample.inside =
    Ok (VStr "12345678-1234-5678-1234-567812345678").
Proof. reflexivity. Qed.

Example getattr_tags_inside :
  Sample.__getattr__ "tags" Sample.inside = Ok (VList [VStr "a"; VStr "b"]).
Proof. reflexivity. Qed.

Example getattr_name_mocked_outside :
  Sample.__getattr__ "name"
    (Sample.outside_with {[ "PREFECT__RUNTIME__TASK_RUN__NAME" := "my-task" ]}) =
    Ok (VStr "my-task").
Proof. reflexivity. Qed.

Example getattr_tags_mocked_inside :
  Sample.__getattr__ "tags"
    (Sample.inside_with {[ "PREFECT__RUNTIME__TASK_RUN__TAGS" := "c" ]}) =
    Ok (VStr "c").
Proof. reflexivity. Qed.

(** With a registry that has an [int] attribute, the casting chain parses
    the mocked text and raises on text that is not a number. *)
Example getattr_int_mocked :
  Sample.getattr_in Sample.typed_fields "retries"
    (Sample.outside_with {[ "PREFECT__RUNTIME__TASK_RUN__RETRIES" := "12" ]}) =
    Ok (VInt 12).
Proof. reflexivity. Qed.

Example getattr_int_unparsable :
  Sample.getattr_in Sample.typed_fields "retries"
    (Sample.outside_with {[ "PREFECT__RUNTIME__TASK_RUN__RETRIES" := "abc" ]}) =
    Raise ValueError.
Proof. reflexivity. Qed.

Example getattr_date_unparsable :
  Sample.getattr_in Sample.typed_fields "started"
    (Sample.outside_with {[ "PREFECT__RUNTIME__TASK_RUN__STARTED" := "soon" ]}) =
    Raise ValueError.
Proof. reflexivity. Qed.

Example getattr_bool_mocked_empty :
  Sample.getattr_in Sample.typed_fields "flag"
    (Sample.outside_with {[ "PREFECT__RUNTIME__TASK_RUN__FLAG" := "" ]}) =
    Ok (VBool false).
Proof. reflexivity. Qed.

(** ** The theorems at concrete inputs *)

Lemma neutral_default_without_context_witness :
  is_Some (FIELDS (PyFloat := unit) (DateTime := unit) !! "tags") /\
  "tags" <> "id" /\
  TaskRunContext_get Sample.outside = None /\
  os_environ Sample.outside !! env_key "tags" = None /\
  Sample.__getattr__ "tags" Sample.outside = Ok (VList []).
Proof.
  assert (Hreg : is_Some (FIELDS (PyFloat := unit) (DateTime := unit) !! "tags"))
    by (eexists; reflexivity).
  assert (Hid : "tags" <> "id") by discriminate.
  assert (Hctx : TaskRunContext_get Sample.outside = None) by reflexivity.
  assert (Henv : os_environ Sample.outside !! env_key "tags" = None)
    by reflexivity.
  refine (conj Hreg (conj Hid (conj Hctx (conj Henv _)))).
  exact (neutral_default_without_context
           Sample.int Sample.float Sample.dateparser_parse
           Sample.pendulum_instance "tags" Sample.outside Hreg Hid Hctx Henv).
Defined.

Lemma id_without_context_witness :
  TaskRunContext_get Sample.outside = None /\
  os_environ Sample.outside !! env_key "id" = None /\
  get_id Sample.outside = VNone /\
  Sample.__getattr__ "id" Sample.outside = Ok VNone.
Proof.
  assert (Hctx : TaskRunContext_get Sample.outside = None) by reflexivity.
  assert (Henv : os_environ Sample.outside !! env_key "id" = None)
    by reflexivity.
  refine (conj Hctx (conj Henv _)).
  exact (id_without_context
           Sample.int Sample.float Sample.dateparser_parse
           Sample.pendulum_instance Sample.outside Hctx Henv).
Defined.

Lemma context_value_unmodified_witness :
  is_Some (FIELDS (PyFloat := unit) (DateTime := unit) !! "id") /\
  TaskRunContext_get Sample.inside = Some Sample.ctx /\
  os_environ Sample.inside !! env_key "id" = None /\
  Sample.__getattr__ "id" Sample.inside =
    Ok (VStr "12345678-1234-5678-1234-567812345678").
Proof.
  assert (Hreg : is_Some (FIELDS (PyFloat := unit) (DateTime := unit) !! "id"))
    by (eexists; reflexivity).
  assert (Hctx : TaskRunContext_get Sample.inside = Some Sample.ctx)
    by reflexivity.
  assert (Henv : os_environ Sample.inside !! env_key "id" = None)
    by reflexivity.
  refine (conj Hreg (conj Hctx (conj Henv _))).
  exact (context_value_unmodified
           Sample.int Sample.float Sample.dateparser_parse
           Sample.pendulum_instance "id" Sample.inside Sample.ctx
           Hreg Hctx Henv).
Defined.

Lemma unknown_attribute_raises_witness :
  isascii "not_a_real_attr" = true /\
  FIELDS (PyFloat := unit) (DateTime := unit) !! "not_a_real_attr" = None /\
  os_environ Sample.inside !! env_key "not_a_real_attr" = None /\
  Sample.__getattr__ "not_a_real_attr" Sample.inside =
    Raise (AttributeError "prefect.runtime.task_run" "not_a_real_attr").
Proof.
  assert (Hreg : FIELDS (PyFloat := unit) (DateTime := unit)
                   !! "not_a_real_attr" = None) by reflexivity.
  assert (Henv : os_environ Sample.inside !! env_key "not_a_real_attr" = None)
    by reflexivity.
  refine (conj eq_refl (conj Hreg (conj Henv _))).
  exact (unknown_attribute_raises
           Sample.int Sample.float Sample.dateparser_parse
           Sample.pendulum_instance "not_a_real_attr" Sample.inside
           eq_refl Hreg Henv).
Defined.

Lemma unknown_attribute_mocked_witness :
  isascii "not_a_real_attr" = true /\
  FIELDS (PyFloat := unit) (DateTime := unit) !! "not_a_real_attr" = None /\
  os_environ Sample.mocked_unknown !! env_key "not_a_real_attr" = Some "x" /\
  Sample.__getattr__ "not_a_real_attr" Sample.mocked_unknown = Ok (VStr "x").
Proof.
  assert (Hreg : FIELDS (PyFloat := unit) (DateTime := unit)
                   !! "not_a_real_attr" = None) by reflexivity.
  assert (Henv : os_environ Sample.mocked_unknown
                   !! env_key "not_a_real_attr" = Some "x") by reflexivity.
  refine (conj eq_refl (conj Hreg (conj Henv _))).
  exact (unknown_attribute_mocked
           Sample.int Sample.float Sample.dateparser_parse
           Sample.pendulum_instance "not_a_real_attr" Sample.mocked_unknown "x"
           eq_refl Hreg Henv).
Defined.

Lemma compound_override_is_raw_witness :
  FIELDS !! "parameters" =
    Some (get_parameters (PyFloat := unit) (DateTime := unit)) /\
  ((exists l, get_parameters Sample.mocked_parameters = VList l) \/
   (exists d, get_parameters Sample.mocked_parameters = VDict d)) /\
  os_environ Sample.mocked_parameters !! env_key "parameters" = Some "42" /\
  Sample.__getattr__ "parameters" Sample.mocked_parameters = Ok (VStr "42").
Proof.
  assert (Hreg : FIELDS !! "parameters" =
                 Some (get_parameters (PyFloat := unit) (DateTime := unit)))
    by reflexivity.
  assert (Hreal : (exists l, get_parameters Sample.mocked_parameters = VList l) \/
                  (exists d, get_parameters Sample.mocked_parameters = VDict d))
    by (right; eexists; reflexivity).
  assert (Henv : os_environ Sample.mocked_parameters
                   !! env_key "parameters" = Some "42") by reflexivity.
  refine (conj Hreg (conj Hreal (conj Henv _))).
  exact (compound_override_is_raw
           Sample.int Sample.float Sample.dateparser_parse
           Sample.pendulum_instance FIELDS "parameters" get_parameters
           Sample.mocked_parameters "42" Hreg Hreal Henv).
Defined.

Lemma bool_override_is_truthiness_witness :
  Sample.typed_fields !! "flag" = Some Sample.get_flag /\
  Sample.get_flag Sample.mocked_flag = VBool true /\
  os_environ Sample.mocked_flag !! env_key "flag" = Some "false" /\
  Sample.getattr_in Sample.typed_fields "flag" Sample.mocked_flag =
    Ok (VBool true).
Proof.
  assert (Hreg : Sample.typed_fields !! "flag" = Some Sample.get_flag)
    by reflexivity.
  assert (Hreal : Sample.get_flag Sample.mocked_flag = VBool true)
    by reflexivity.
  assert (Henv : os_environ Sample.mocked_flag !! env_key "flag" = Some "false")
    by reflexivity.
  refine (conj Hreg (conj Hreal (conj Henv _))).
  exact (bool_override_is_truthiness
           Sample.int Sample.float Sample.dateparser_parse
           Sample.pendulum_instance Sample.typed_fields "flag" Sample.get_flag
           Sample.mocked_flag true "false" Hreg Hreal Henv).
Defined.

(** ** The further properties at concrete inputs *)

Lemma override_first_witness :
  isascii "Tags" = true /\
  Sample.__getattr__ "Tags"
    (Sample.inside_with {[ "PREFECT__RUNTIME__TASK_RUN__TAGS" := "c" ]}) =
    Ok (VStr "c").
Proof.
  refine (conj eq_refl _).
  exact (override_first
           Sample.int Sample.float Sample.dateparser_parse
           Sample.pendulum_instance "Tags"
           (Sample.inside_with {[ "PREFECT__RUNTIME__TASK_RUN__TAGS" := "c" ]})
           eq_refl).
Defined.

Lemma mock_reaches_every_capitalisation_witness :
  isascii "tags" = true /\
  isascii "Tags" = true /\
  upper "Tags" = upper "tags" /\
  os_environ (Sample.inside_with {[ "PREFECT__RUNTIME__TASK_RUN__TAGS" := "c" ]})
    !! env_key "tags" = Some "c" /\
  Sample.__getattr__ "Tags"
    (Sample.inside_with {[ "PREFECT__RUNTIME__TASK_RUN__TAGS" := "c" ]}) =
    Ok (VStr "c").
Proof.
  assert (Hcase : upper "Tags" = upper "tags") by reflexivity.
  assert (Henv : os_environ
                   (Sample.inside_with {[ "PREFECT__RUNTIME__TASK_RUN__TAGS" := "c" ]})
                   !! env_key "tags" = Some "c") by reflexivity.
  refine (conj eq_refl (conj eq_refl (conj Hcase (conj Henv _)))).
  exact (mock_reaches_every_capitalisation
           Sample.int Sample.float Sample.dateparser_parse
           Sample.pendulum_instance "tags" "Tags" _ "c"
           eq_refl eq_refl Hcase Henv).
Defined.

Lemma reads_context_and_own_variable_witness :
  isascii "tags" = true /\
  TaskRunContext_get Sample.inside =
    TaskRunContext_get
      (Sample.inside_with {[ "PREFECT__RUNTIME__TASK_RUN__NAME" := "x" ]}) /\
  os_environ Sample.inside !! env_key "tags" =
    os_environ
      (Sample.inside_with {[ "PREFECT__RUNTIME__TASK_RUN__NAME" := "x" ]})
      !! env_key "tags" /\
  Sample.__getattr__ "tags" Sample.inside =
    Sample.__getattr__ "tags"
      (Sample.inside_with {[ "PREFECT__RUNTIME__TASK_RUN__NAME" := "x" ]}).
Proof.
  assert (Hctx : TaskRunContext_get Sample.inside =
                 TaskRunContext_get
                   (Sample.inside_with {[ "PREFECT__RUNTIME__TASK_RUN__NAME" := "x" ]}))
    by reflexivity.
  assert (Henv : os_environ Sample.inside !! env_key "tags" =
                 os_environ
                   (Sample.inside_with {[ "PREFECT__RUNTIME__TASK_RUN__NAME" := "x" ]})
                   !! env_key "tags") by reflexivity.
  refine (conj eq_refl (conj Hctx (conj Henv _))).
  exact (reads_context_and_own_variable
           Sample.int Sample.float Sample.dateparser_parse
           Sample.pendulum_instance "tags" _ _ eq_refl Hctx Henv).
Defined.

Lemma mock_isolation_witness :
  is_Some (FIELDS (PyFloat := unit) (DateTime := unit) !! "tags") /\
  is_Some (FIELDS (PyFloat := unit) (DateTime := unit) !! "name") /\
  "tags" <> "name" /\
  Sample.__getattr__ "tags" (setenv (env_key "name") "x" Sample.inside) =
    Sample.__getattr__ "tags" Sample.inside.
Proof.
  assert (Hname : is_Some (FIELDS (PyFloat := unit) (DateTime := unit) !! "tags"))
    by (eexists; reflexivity).
  assert (Hother : is_Some (FIELDS (PyFloat := unit) (DateTime := unit) !! "name"))
    by (eexists; reflexivity).
  assert (Hne : "tags" <> "name") by discriminate.
  refine (conj Hname (conj Hother (conj Hne _))).
  exact (mock_isolation
           Sample.int Sample.float Sample.dateparser_parse
           Sample.pendulum_instance "tags" "name" Sample.inside "x"
           Hname Hother Hne).
Defined.

Lemma listed_names_resolve_witness :
  "task_name" ∈ __dir__ Sample.mocked_parameters /\
  exists v, Sample.__getattr__ "task_name" Sample.mocked_parameters = Ok v.
Proof.
  assert (Hdir : "task_name" ∈ __dir__ Sample.mocked_parameters)
    by (change ("task_name" ∈ ["id"; "name"; "parameters"; "tags"; "task_name"]);
        repeat constructor).
  refine (conj Hdir _).
  exact (listed_names_resolve
           Sample.int Sample.float Sample.dateparser_parse
           Sample.pendulum_instance "task_name" Sample.mocked_parameters Hdir).
Defined.

Lemma unmocked_readable_iff_listed_witness :
  isascii "nope" = true /\
  os_environ Sample.inside !! env_key "nope" = None /\
  ("nope" ∈ __dir__ Sample.inside <->
   exists v, Sample.__getattr__ "nope" Sample.inside = Ok v).
Proof.
  assert (Henv : os_environ Sample.inside !! env_key "nope" = None)
    by reflexivity.
  refine (conj eq_refl (conj Henv _)).
  exact (unmocked_readable_iff_listed
           Sample.int Sample.float Sample.dateparser_parse
           Sample.pendulum_instance "nope" Sample.inside eq_refl Henv).
Defined.

Lemma cast_follows_real_type_witness :
  Sample.typed_fields !! "retries" = Some (fun _ => VInt 3) /\
  os_environ
    (Sample.outside_with {[ "PREFECT__RUNTIME__TASK_RUN__RETRIES" := "12" ]})
    !! env_key "retries" = Some "12" /\
  Sample.getattr_in Sample.typed_fields "retries"
    (Sample.outside_with {[ "PREFECT__RUNTIME__TASK_RUN__RETRIES" := "12" ]}) =
    Ok (VInt 12) /\
  type_of (@VInt unit unit 12) = int_type.
Proof.
  assert (Hname : Sample.typed_fields !! "retries" = Some (fun _ => VInt 3))
    by reflexivity.
  assert (Henv : os_environ
                   (Sample.outside_with
                      {[ "PREFECT__RUNTIME__TASK_RUN__RETRIES" := "12" ]})
                   !! env_key "retries" = Some "12") by reflexivity.
  assert (Hv : Sample.getattr_in Sample.typed_fields "retries"
                 (Sample.outside_with
                    {[ "PREFECT__RUNTIME__TASK_RUN__RETRIES" := "12" ]}) =
               Ok (VInt 12)) by reflexivity.
  refine (conj Hname (conj Henv (conj Hv _))).
  exact (cast_follows_real_type
           Sample.int Sample.float Sample.dateparser_parse
           Sample.pendulum_instance Sample.typed_fields "retries" _ _ "12"
           (VInt 12) Hname Henv Hv).
Defined.

Lemma empty_values_without_context_witness :
  is_Some (FIELDS (PyFloat := unit) (DateTime := unit) !! "id") /\
  TaskRunContext_get Sample.outside = None /\
  os_environ Sample.outside !! env_key "id" = None /\
  exists v, Sample.__getattr__ "id" Sample.outside = Ok v /\
            is_empty_value v = true.
Proof.
  assert (Hname : is_Some (FIELDS (PyFloat := unit) (DateTime := unit) !! "id"))
    by (eexists; reflexivity).
  assert (Hctx : TaskRunContext_get Sample.outside = None) by reflexivity.
  assert (Henv : os_environ Sample.outside !! env_key "id" = None)
    by reflexivity.
  refine (conj Hname (conj Hctx (conj Henv _))).
  exact (empty_values_without_context
           Sample.int Sample.float Sample.dateparser_parse
           Sample.pendulum_instance "id" Sample.outside Hname Hctx Henv).
Defined.
